(** * Export settings of the Blender add-on [io_three]

    A shallow embedding of
    [utils/exporters/blender/addons/io_three/__init__.py]: the settings
    store ([save_settings_export], [restore_settings_export]), the probe
    of the compression formats ([compression_types]) and the export
    action ([ExportThree.execute]).

    Python values are embedded as a small universe of JSON-like values,
    dictionaries and attribute stores as finite maps with string keys,
    and statements that may raise as functions into [result]. *)

From Stdlib Require Import ZArith QArith String Ascii List.
From stdpp Require Import base option gmap strings list fin_maps.

Local Open Scope string_scope.
#[local] Set Warnings "-register-all".

(** ** Values *)

(** What [json.load] can return and what an option may hold.  A float
    is kept as the rational it denotes: the code modelled here stores
    and compares options, it performs no arithmetic on them. *)
Inductive value : Type :=
| VNone
| VBool (b : bool)
| VInt (z : Z)
| VFloat (q : Q)
| VStr (s : string)
| VList (l : list value)
| VDict (d : gmap string value).

(** Python's truth value of an object, as tested by [if x:] and
    [not x]. *)
Definition truthy (v : value) : bool :=
  match v with
  | VNone => false
  | VBool b => b
  | VInt z => negb (z =? 0)%Z
  | VFloat q => negb (Qnum q =? 0)%Z
  | VStr s => negb (String.eqb s "")
  | VList l => match l with [] => false | _ => true end
  | VDict d => negb (bool_decide (d = ∅))
  end.

(** [v == s] for a string [s]: only a string compares equal to a
    string. *)
Definition eq_str (v : value) (s : string) : bool :=
  match v with
  | VStr t => String.eqb t s
  | _ => false
  end.

(** ** Exceptions *)

Inductive exn : Type :=
| Exception (msg : string)
| KeyError (key : string)
| AttributeError (attr : string)
| ValueError
| IOError (path : string)
| ImportError (name : string)
| OtherError (msg : string).

Inductive result (A : Type) : Type :=
| Ok (a : A)
| Raise (e : exn).
Arguments Ok {A} a.
Arguments Raise {A} e.

(** ** Statements that raise and mutate

    A statement run in a state [S] returns normally or raises, and
    leaves the state it has reached: an exception does not undo the
    mutations made before it. *)
Definition M (S A : Type) : Type := S -> result A * S.

Definition ret {S A} (a : A) : M S A := fun s => (Ok a, s).
Definition raise {S A} (e : exn) : M S A := fun s => (Raise e, s).
Definition bind {S A B} (c : M S A) (k : A -> M S B) : M S B :=
  fun s =>
    match c s with
    | (Ok a, s') => k a s'
    | (Raise e, s') => (Raise e, s')
    end.
(** An expression that may raise, evaluated as a statement. *)
Definition lift {S A} (r : result A) : M S A := fun s => (r, s).

Declare Scope py_scope.
Delimit Scope py_scope with py.
Notation "x <- c ;; k" := (bind c (fun x => k))
  (at level 100, c at next level, right associativity) : py_scope.
Notation "c ;; k" := (bind c (fun _ => k))
  (at level 100, right associativity) : py_scope.

(** ** Strings and paths *)

(** [s[:-n]]: everything but the last [n] characters, the empty string
    when [s] has fewer than [n]. *)
Definition slice_to_neg (n : nat) (s : string) : string :=
  String.substring 0 (String.length s - n) s.

Fixpoint endswith_sep (s : string) : bool :=
  match s with
  | EmptyString => false
  | String c EmptyString => Ascii.eqb c "/"
  | String _ t => endswith_sep t
  end.

(** [os.path.join(a, b)] of [posixpath]. *)
Definition os_path_join (a b : string) : string :=
  if String.prefix "/" b then b
  else if String.eqb a "" || endswith_sep a then a ++ b
  else a ++ "/" ++ b.

(** ** Dictionaries *)

(** A dictionary literal [{k1: v1, ..., kn: vn}]: the items are stored
    from left to right, a repeated key keeps its last value. *)
Definition dict_literal (items : list (string * value)) : gmap string value :=
  foldl (fun m kv => <[kv.1 := kv.2]> m) ∅ items.

(** [d[k]] *)
Definition subscript (d : gmap string value) (k : string) : result value :=
  match d !! k with
  | Some v => Ok v
  | None => Raise (KeyError k)
  end.

(** [settings.get(k, fallback)], where [settings] is whatever
    [json.load] returned and [fallback] has been evaluated as an
    argument: the attribute [get] is looked up first, and only a
    dictionary has it. *)
Definition dict_get (settings : value) (k : string) (fallback : result value)
  : result value :=
  match settings with
  | VDict d =>
      match fallback with
      | Ok dv => Ok (default dv (d !! k))
      | Raise e => Raise e
      end
  | _ => Raise (AttributeError "get")
  end.

(** ** Constants of [io_three.constants] *)

Module constants.

(** Modelled from the spec: the module [constants.py] of the add-on is
    not part of the sources at hand.  The keys of the settings are the
    literal key set of the persisted state file (section 6 of the
    specification), given here in the order of that list. *)
Definition VERTICES := "vertices".
Definition FACES := "faces".
Definition NORMALS := "normals".
Definition SKINNING := "skinning".
Definition BONES := "bones".
Definition INFLUENCES_PER_VERTEX := "influencesPerVertex".
Definition GEOMETRY_TYPE := "geometryType".
Definition MATERIALS := "materials".
Definition UVS := "uvCoords".
Definition FACE_MATERIALS := "faceMaterials".
Definition MAPS := "maps".
Definition COLORS := "colors".
Definition MIX_COLORS := "mixColors".
Definition SCALE := "scale".
Definition ENABLE_PRECISION := "enablePrecision".
Definition PRECISION := "precision".
Definition LOGGING := "logging".
Definition COMPRESSION := "compression".
Definition INDENT := "indent".
Definition COPY_TEXTURES := "copyTextures".
Definition SCENE := "scene".
Definition EMBED_ANIMATION := "embedAnimation".
Definition LIGHTS := "lights".
Definition CAMERAS := "cameras".
Definition MORPH_TARGETS := "morphTargets".
Definition ANIMATION := "animation".
Definition FRAME_STEP := "frameStep".
Definition FRAME_INDEX_AS_TIME := "frameIndexAsTime".

(** Modelled from the spec: the codec tags of [constants.py], the
    strings the specification writes for them. *)
Definition NONE := "none".
Definition MSGPACK := "msgpack".

End constants.
Import constants.

(** The name of the settings file, in the temporary directory. *)
Definition SETTINGS_FILE_EXPORT := "three_settings_export.js".

(** ** The operator's properties

    The attributes [option_*] that [ExportThree] declares, and the
    attribute [filepath] of [ExportHelper].  An assignment
    [properties.a = v] stores [v]: what the host does to a value on
    assignment is no part of the add-on and is not modelled. *)
Inductive option_attr : Type :=
| option_vertices | option_faces | option_normals | option_colors
| option_mix_colors | option_uv_coords | option_materials
| option_face_materials | option_maps | option_skinning | option_bones
| option_scale | option_round_off | option_round_value | option_logging
| option_geometry_type | option_export_scene | option_embed_animation
| option_copy_textures | option_lights | option_cameras
| option_animation_morph | option_animation_skeletal
| option_frame_index_as_time | option_frame_step | option_indent
| option_compression | option_influences.

#[global] Instance option_attr_eq_dec : EqDecision option_attr.
Proof. solve_decision. Defined.

Definition all_option_attrs : list option_attr :=
  [option_vertices; option_faces; option_normals; option_colors;
   option_mix_colors; option_uv_coords; option_materials;
   option_face_materials; option_maps; option_skinning; option_bones;
   option_scale; option_round_off; option_round_value; option_logging;
   option_geometry_type; option_export_scene; option_embed_animation;
   option_copy_textures; option_lights; option_cameras;
   option_animation_morph; option_animation_skeletal;
   option_frame_index_as_time; option_frame_step; option_indent;
   option_compression; option_influences].

Record properties : Type := Properties {
  filepath : string;
  attr : option_attr -> value
}.

(** [properties.a = v] *)
Definition setattr (a : option_attr) (v : value) (p : properties) : properties :=
  {| filepath := filepath p;
     attr := fun b => if decide (a = b) then v else attr p b |}.

(** [properties.a = e] for an expression [e] that may raise: nothing is
    stored when it does. *)
Definition assign (a : option_attr) (e : result value) : M properties unit :=
  fun p =>
    match e with
    | Ok v => (Ok tt, setattr a v p)
    | Raise x => (Raise x, p)
    end.

(** ** The environment of the add-on *)

(** [json.dump] and [json.load] of Python's standard library, over the
    text of a file.  [json_load] gives [None] where [json.load] raises
    [ValueError]; what [json.dump] writes, [json.load] reads back. *)
Class JsonCodec (text : Type) : Type := {
  json_dump : value -> text;
  json_load : text -> option value;
  json_load_dump : forall v, json_load (json_dump v) = Some v
}.

(** A file: its content, and whether the process may read it
    ([os.access(fname, os.R_OK)]) and open it for writing. *)
Record file (text : Type) : Type := File {
  contents : text;
  r_ok : bool;
  w_ok : bool
}.
Arguments File {text} contents r_ok w_ok.
Arguments contents {text} f.
Arguments r_ok {text} f.
Arguments w_ok {text} f.

(** The two entry points of [io_three.exporter]. *)
Inductive entry_point : Type := export_scene | export_geometry.

(** What the add-on does to the world around it, in order. *)
Inductive event (text : Type) : Type :=
| Wrote (path : string) (data : text)
| Called (entry : entry_point) (path : string) (settings : gmap string value).
Arguments Wrote {text} path data.
Arguments Called {text} entry path settings.

(** The files by path, and the events so far. *)
Record world (text : Type) : Type := World {
  disk : gmap string (file text);
  trace : list (event text)
}.
Arguments World {text} disk trace.
Arguments disk {text} w.
Arguments trace {text} w.

(** The value of [{'FINISHED'}]. *)
Inductive status : Type := FINISHED.

Section Addon.

Local Open Scope py_scope.

Context {text : Type} `{!JsonCodec text}.

(** [constants.EXPORT_OPTIONS], the table of the defaults, and
    [constants.PACK], the suffix of a msgpack file: [constants.py] is
    not at hand and the add-on is modelled for any table and any
    suffix. *)
Variable EXPORT_OPTIONS : gmap string value.
Variable PACK : string.

(** [bpy.app.tempdir] *)
Variable tempdir : string.

(** The outcome of the statement [import msgpack]. *)
Variable import_msgpack : result unit.

(** The collaborator [io_three.exporter]: an entry point is given a
    path and the settings, works on the files, and returns or raises. *)
Variable exporter :
  entry_point -> string -> gmap string value ->
  gmap string (file text) -> result unit * gmap string (file text).

(** *** Files *)

(** [with open(fname, 'w') as stream: json.dump(obj, stream)].  An
    existing file is truncated and rewritten if it may be written; a
    missing one is created, readable and writable by the process. *)
Definition open_write (fname : string) (data : text) : M (world text) unit :=
  fun w =>
    match disk w !! fname with
    | Some f =>
        if w_ok f
        then (Ok tt, World (<[fname := File data (r_ok f) (w_ok f)]> (disk w))
                           (trace w ++ [Wrote fname data]))
        else (Raise (IOError fname), w)
    | None =>
        (Ok tt, World (<[fname := File data true true]> (disk w))
                      (trace w ++ [Wrote fname data]))
    end.

(** A call of an entry point of the exporter. *)
Definition call_exporter (entry : entry_point) (path : string)
    (settings : gmap string value) : M (world text) unit :=
  fun w =>
    let '(r, d) := exporter entry path settings (disk w) in
    (r, World d (trace w ++ [Called entry path settings])).

(** *** [get_settings_fullpath] *)
Definition get_settings_fullpath : string :=
  os_path_join tempdir SETTINGS_FILE_EXPORT.

(** *** [save_settings_export] *)

(** The dictionary [settings] built from the properties. *)
Definition settings_of (properties : properties) : gmap string value :=
  dict_literal [
    (VERTICES, attr properties option_vertices);
    (FACES, attr properties option_faces);
    (NORMALS, attr properties option_normals);
    (SKINNING, attr properties option_skinning);
    (BONES, attr properties option_bones);
    (GEOMETRY_TYPE, attr properties option_geometry_type);

    (MATERIALS, attr properties option_materials);
    (UVS, attr properties option_uv_coords);
    (FACE_MATERIALS, attr properties option_face_materials);
    (MAPS, attr properties option_maps);
    (COLORS, attr properties option_colors);
    (MIX_COLORS, attr properties option_mix_colors);

    (SCALE, attr properties option_scale);
    (ENABLE_PRECISION, attr properties option_round_off);
    (PRECISION, attr properties option_round_value);
    (LOGGING, attr properties option_logging);
    (COMPRESSION, attr properties option_compression);
    (INDENT, attr properties option_indent);
    (COPY_TEXTURES, attr properties option_copy_textures);

    (SCENE, attr properties option_export_scene);
    (EMBED_ANIMATION, attr properties option_embed_animation);
    (LIGHTS, attr properties option_lights);
    (CAMERAS, attr properties option_cameras);

    (MORPH_TARGETS, attr properties option_animation_morph);
    (ANIMATION, attr properties option_animation_skeletal);
    (FRAME_STEP, attr properties option_frame_step);
    (FRAME_INDEX_AS_TIME, attr properties option_frame_index_as_time);
    (INFLUENCES_PER_VERTEX, attr properties option_influences)
  ].

Definition save_settings_export (properties : properties)
  : M (world text) (gmap string value) :=
  let settings := settings_of properties in
  let fname := get_settings_fullpath in
  open_write fname (json_dump (VDict settings)) ;;
  ret settings.

(** *** [restore_settings_export] *)

(** The first statements: [settings] is the empty dictionary unless the
    file exists and may be read, and then it is what [json.load]
    returns. *)
Definition read_settings (w : world text) : result value :=
  let fname := get_settings_fullpath in
  match disk w !! fname with
  | Some f =>
      if r_ok f
      then match json_load (contents f) with
           | Some settings => Ok settings
           | None => Raise ValueError
           end
      else Ok (VDict ∅)
  | None => Ok (VDict ∅)
  end.

Definition restore_settings_export (w : world text) : M properties unit :=
  settings <- lift (read_settings w) ;;
  (* Geometry *)
  assign option_vertices
    (dict_get settings VERTICES (subscript EXPORT_OPTIONS VERTICES)) ;;
  assign option_faces
    (dict_get settings FACES (subscript EXPORT_OPTIONS FACES)) ;;
  assign option_normals
    (dict_get settings NORMALS (subscript EXPORT_OPTIONS NORMALS)) ;;
  assign option_skinning
    (dict_get settings SKINNING (subscript EXPORT_OPTIONS SKINNING)) ;;
  assign option_bones
    (dict_get settings BONES (subscript EXPORT_OPTIONS BONES)) ;;
  assign option_influences
    (dict_get settings INFLUENCES_PER_VERTEX
       (subscript EXPORT_OPTIONS INFLUENCES_PER_VERTEX)) ;;
  assign option_geometry_type
    (dict_get settings GEOMETRY_TYPE (subscript EXPORT_OPTIONS GEOMETRY_TYPE)) ;;
  (* Materials *)
  assign option_materials
    (dict_get settings MATERIALS (subscript EXPORT_OPTIONS MATERIALS)) ;;
  assign option_uv_coords
    (dict_get settings UVS (subscript EXPORT_OPTIONS UVS)) ;;
  assign option_face_materials
    (dict_get settings FACE_MATERIALS (subscript EXPORT_OPTIONS FACE_MATERIALS)) ;;
  assign option_maps
    (dict_get settings MAPS (subscript EXPORT_OPTIONS MAPS)) ;;
  assign option_colors
    (dict_get settings COLORS (subscript EXPORT_OPTIONS COLORS)) ;;
  assign option_mix_colors
    (dict_get settings MIX_COLORS (subscript EXPORT_OPTIONS MIX_COLORS)) ;;
  (* Settings *)
  assign option_scale
    (dict_get settings SCALE (subscript EXPORT_OPTIONS SCALE)) ;;
  assign option_round_off
    (dict_get settings ENABLE_PRECISION
       (subscript EXPORT_OPTIONS ENABLE_PRECISION)) ;;
  assign option_round_value
    (dict_get settings PRECISION (subscript EXPORT_OPTIONS PRECISION)) ;;
  assign option_logging
    (dict_get settings LOGGING (subscript EXPORT_OPTIONS LOGGING)) ;;
  assign option_compression
    (dict_get settings COMPRESSION (Ok (VStr NONE))) ;;
  assign option_indent
    (dict_get settings INDENT (subscript EXPORT_OPTIONS INDENT)) ;;
  assign option_copy_textures
    (dict_get settings COPY_TEXTURES (subscript EXPORT_OPTIONS COPY_TEXTURES)) ;;
  assign option_embed_animation
    (dict_get settings EMBED_ANIMATION
       (subscript EXPORT_OPTIONS EMBED_ANIMATION)) ;;
  (* Scene *)
  assign option_export_scene
    (dict_get settings SCENE (subscript EXPORT_OPTIONS SCENE)) ;;
  assign option_lights
    (dict_get settings LIGHTS (subscript EXPORT_OPTIONS LIGHTS)) ;;
  assign option_cameras
    (dict_get settings CAMERAS (subscript EXPORT_OPTIONS CAMERAS)) ;;
  (* Animation *)
  assign option_animation_morph
    (dict_get settings MORPH_TARGETS (subscript EXPORT_OPTIONS MORPH_TARGETS)) ;;
  assign option_animation_skeletal
    (dict_get settings ANIMATION (subscript EXPORT_OPTIONS ANIMATION)) ;;
  assign option_frame_step
    (dict_get settings FRAME_STEP (subscript EXPORT_OPTIONS FRAME_STEP)) ;;
  assign option_frame_index_as_time
    (dict_get settings FRAME_INDEX_AS_TIME
       (subscript EXPORT_OPTIONS FRAME_INDEX_AS_TIME)).

(** *** [compression_types] *)

Definition enum_item (key : string) : string * string * string := (key, key, key).

(** [try: import msgpack ... except ImportError: pass]: only an
    [ImportError] is caught. *)
Definition compression_types : result (list (string * string * string)) :=
  let types := [enum_item NONE] in
  match import_msgpack with
  | Ok _ => Ok (types ++ [enum_item MSGPACK])%list
  | Raise (ImportError _) => Ok types
  | Raise e => Raise e
  end.

(** *** [ExportThree.execute] *)

(** Lines 697 to 699: the path handed to the exporter. *)
Definition resolve_filepath (filepath : string) (compression : value) : string :=
  if eq_str compression MSGPACK
  then slice_to_neg 4 filepath ++ PACK
  else filepath.

Definition execute (properties : properties) : M (world text) status :=
  if negb (truthy (VStr (filepath properties)))
  then raise (Exception "filename not set")
  else
    settings <- save_settings_export properties ;;
    compression <- lift (subscript settings COMPRESSION) ;;
    let filepath := resolve_filepath (filepath properties) compression in
    scene <- lift (subscript settings SCENE) ;;
    (if truthy scene
     then call_exporter export_scene filepath settings
     else call_exporter export_geometry filepath settings) ;;
    ret FINISHED.

End Addon.

(** ** The settings as a record of the options *)

(** The key under which [save_settings_export] stores an attribute and
    [restore_settings_export] looks it up ([settings_of_key_of] and
    [restore_attr] below check it against both). *)
Definition key_of (a : option_attr) : string :=
  match a with
  | option_vertices => VERTICES
  | option_faces => FACES
  | option_normals => NORMALS
  | option_colors => COLORS
  | option_mix_colors => MIX_COLORS
  | option_uv_coords => UVS
  | option_materials => MATERIALS
  | option_face_materials => FACE_MATERIALS
  | option_maps => MAPS
  | option_skinning => SKINNING
  | option_bones => BONES
  | option_scale => SCALE
  | option_round_off => ENABLE_PRECISION
  | option_round_value => PRECISION
  | option_logging => LOGGING
  | option_geometry_type => GEOMETRY_TYPE
  | option_export_scene => SCENE
  | option_embed_animation => EMBED_ANIMATION
  | option_copy_textures => COPY_TEXTURES
  | option_lights => LIGHTS
  | option_cameras => CAMERAS
  | option_animation_morph => MORPH_TARGETS
  | option_animation_skeletal => ANIMATION
  | option_frame_index_as_time => FRAME_INDEX_AS_TIME
  | option_frame_step => FRAME_STEP
  | option_indent => INDENT
  | option_compression => COMPRESSION
  | option_influences => INFLUENCES_PER_VERTEX
  end.

(** The keys of the settings. *)
Definition option_keys : list string := key_of <$> all_option_attrs.

(** [EXPORT_OPTIONS] has an entry for each key that
    [restore_settings_export] subscripts it with: every key but
    [COMPRESSION]. *)
Definition catalog_complete (EXPORT_OPTIONS : gmap string value) : Prop :=
  forall a, a <> option_compression -> is_Some (EXPORT_OPTIONS !! key_of a).

(** The second argument of [settings.get] for an attribute. *)
Definition fallback (EXPORT_OPTIONS : gmap string value) (a : option_attr) : value :=
  if decide (a = option_compression) then VStr NONE
  else default VNone (EXPORT_OPTIONS !! key_of a).

(** The settings file is missing, or the process may write it. *)
Definition may_write {text} (fname : string) (w : world text) : Prop :=
  match disk w !! fname with
  | Some f => w_ok f = true
  | None => True
  end.

(** The world once [data] is written to [fname]. *)
Definition written {text} (fname : string) (data : text) (w : world text)
  : world text :=
  World (<[fname := match disk w !! fname with
                    | Some f => File data (r_ok f) (w_ok f)
                    | None => File data true true
                    end]> (disk w))
        (trace w ++ [Wrote fname data]).

(** ** The declared bounds

    The hard bounds [min] and [max] that [ExportThree] declares for its
    numeric properties [option_scale], [option_round_value],
    [option_frame_step] and [option_influences]. *)
Definition declared_bounds (a : option_attr) : option (Q * Q) :=
  match a with
  | option_scale => Some (1 # 100, 1000 # 1)%Q
  | option_round_value => Some (0 # 1, 16 # 1)%Q
  | option_frame_step => Some (1 # 1, 1000 # 1)%Q
  | option_influences => Some (1 # 1, 4 # 1)%Q
  | _ => None
  end.

(** The number a value denotes, if it is one. *)
Definition number_of (v : value) : option Q :=
  match v with
  | VInt z => Some (inject_Z z)
  | VFloat q => Some q
  | _ => None
  end.

(** [v] is a number within the bounds declared for [a]. *)
Definition in_bounds (a : option_attr) (v : value) : bool :=
  match declared_bounds a, number_of v with
  | Some (lo, hi), Some q => Qle_bool lo q && Qle_bool q hi
  | _, _ => false
  end.

(** ** A sample environment *)

(** A text is the rendering of a value or it is not JSON. *)
Inductive sample_text : Type :=
| Rendered (v : value)
| Unparsable (raw : string).

#[global] Instance sample_codec : JsonCodec sample_text := {|
  json_dump := Rendered;
  json_load t := match t with Rendered v => Some v | Unparsable _ => None end;
  json_load_dump _ := eq_refl
|}.

(** A table of defaults whose entry for the compression is [None]. *)
Definition sample_EXPORT_OPTIONS : gmap string value :=
  dict_literal [
    (FACES, VBool true); (VERTICES, VBool true); (NORMALS, VBool true);
    (UVS, VBool true); (COLORS, VBool false); (MATERIALS, VBool false);
    (FACE_MATERIALS, VBool false); (SCALE, VInt 1); (FRAME_STEP, VInt 1);
    (FRAME_INDEX_AS_TIME, VBool false); (SCENE, VBool false);
    (MIX_COLORS, VBool false); (COMPRESSION, VNone); (MAPS, VBool false);
    (ANIMATION, VStr "off"); (BONES, VBool false); (SKINNING, VBool false);
    (MORPH_TARGETS, VBool false); (CAMERAS, VBool false);
    (LIGHTS, VBool false); (COPY_TEXTURES, VBool true);
    (LOGGING, VStr "debug"); (ENABLE_PRECISION, VBool true);
    (PRECISION, VInt 6); (EMBED_ANIMATION, VBool true);
    (GEOMETRY_TYPE, VStr "geometry"); (INFLUENCES_PER_VERTEX, VInt 2);
    (INDENT, VBool true)
  ].

(** Properties as the declarations of [ExportThree] initialise them,
    with an output path chosen. *)
Definition sample_properties : properties :=
  {| filepath := "model.json";
     attr := fun a =>
       match a with
       | option_logging => VStr "debug"
       | option_geometry_type => VStr "geometry"
       | option_lights => VBool false
       | option_cameras => VBool false
       | option_animation_skeletal => VStr "off"
       | option_frame_step => VInt 1
       | option_compression => VStr NONE
       | option_influences => VInt 2
       | _ => default VNone (sample_EXPORT_OPTIONS !! key_of a)
       end |}.

(** An exporter that succeeds and one that fails, both leaving the
    files as they are. *)
Definition sample_exporter (entry : entry_point) (path : string)
    (settings : gmap string value) (d : gmap string (file sample_text))
  : result unit * gmap string (file sample_text) := (Ok tt, d).

Definition failing_exporter (entry : entry_point) (path : string)
    (settings : gmap string value) (d : gmap string (file sample_text))
  : result unit * gmap string (file sample_text) :=
  (Raise (OtherError "export failed"), d).

(** No file yet, nothing done yet. *)
Definition empty_world : world sample_text := World ∅ [].

(** A world whose settings file, in [/tmp/], has the given text. *)
Definition world_with (data : sample_text) : world sample_text :=
  World {[ "/tmp/three_settings_export.js" := File data true true ]} [].

(** ** The assignments of [restore_settings_export], as a list *)

(** The attributes in the order in which [restore_settings_export]
    assigns them. *)
Definition restore_order : list option_attr :=
  [option_vertices; option_faces; option_normals; option_skinning;
   option_bones; option_influences; option_geometry_type;
   option_materials; option_uv_coords; option_face_materials; option_maps;
   option_colors; option_mix_colors;
   option_scale; option_round_off; option_round_value; option_logging;
   option_compression; option_indent; option_copy_textures;
   option_embed_animation;
   option_export_scene; option_lights; option_cameras;
   option_animation_morph; option_animation_skeletal; option_frame_step;
   option_frame_index_as_time].

(** The second argument of [settings.get] in the assignment of an
    attribute, as an expression that may raise. *)
Definition fallback_expr (EXPORT_OPTIONS : gmap string value) (a : option_attr)
  : result value :=
  if decide (a = option_compression) then Ok (VStr NONE)
  else subscript EXPORT_OPTIONS (key_of a).

(** One assignment [properties.a = settings.get(key, fallback)]. *)
Definition restore_step (EXPORT_OPTIONS : gmap string value) (settings : value)
    (a : option_attr) : M properties unit :=
  assign a (dict_get settings (key_of a) (fallback_expr EXPORT_OPTIONS a)).

(** The assignments of the attributes of a list, one after the other. *)
Fixpoint restore_steps (EXPORT_OPTIONS : gmap string value) (settings : value)
    (l : list option_attr) : M properties unit :=
  match l with
  | [] => ret tt
  | [a] => restore_step EXPORT_OPTIONS settings a
  | a :: l' =>
      bind (restore_step EXPORT_OPTIONS settings a)
           (fun _ => restore_steps EXPORT_OPTIONS settings l')
  end.

(** ** Strings: case and replacement *)

Definition is_lower (c : ascii) : bool :=
  Nat.leb 97 (nat_of_ascii c) && Nat.leb (nat_of_ascii c) 122.
Definition is_upper (c : ascii) : bool :=
  Nat.leb 65 (nat_of_ascii c) && Nat.leb (nat_of_ascii c) 90.
Definition to_upper (c : ascii) : ascii :=
  if is_lower c then ascii_of_nat (nat_of_ascii c - 32) else c.
Definition to_lower (c : ascii) : ascii :=
  if is_upper c then ascii_of_nat (nat_of_ascii c + 32) else c.

(** A string of ASCII characters. *)
Fixpoint is_ascii_str (s : string) : bool :=
  match s with
  | EmptyString => true
  | String c t => Nat.ltb (nat_of_ascii c) 128 && is_ascii_str t
  end.

(** [s.lower()] of an ASCII string. *)
Fixpoint str_lower (s : string) : string :=
  match s with
  | EmptyString => EmptyString
  | String c t => String (to_lower c) (str_lower t)
  end.

(** [s.title()] of an ASCII string: a letter that follows a letter is
    put in lower case, any other letter in upper case.
    [previous_is_cased] tells whether the character before was a
    letter. *)
Fixpoint title_from (previous_is_cased : bool) (s : string) : string :=
  match s with
  | EmptyString => EmptyString
  | String c t =>
      if is_lower c then
        String (if previous_is_cased then c else to_upper c) (title_from true t)
      else if is_upper c then
        String (if previous_is_cased then to_lower c else c) (title_from true t)
      else String c (title_from false t)
  end.

Definition title (s : string) : string := title_from false s.

(** [s.replace(old, new)] for a non-empty [old]: the occurrences of
    [old] are replaced from left to right, and the search goes on
    after each one.  [skip] counts the characters of an occurrence
    still to pass over. *)
Fixpoint replace_from (old new : string) (skip : nat) (s : string) : string :=
  match s with
  | EmptyString => EmptyString
  | String c t =>
      match skip with
      | S k => replace_from old new k t
      | O =>
          if String.prefix old (String c t)
          then new ++ replace_from old new (String.length old - 1) t
          else String c (replace_from old new 0 t)
      end
  end.

Definition str_replace (old new s : string) : string :=
  replace_from old new 0 s.

(** [old] occurs in [s]. *)
Definition occurs (old s : string) : Prop :=
  exists before after : string, s = before ++ old ++ after.

(** ** Tuples and comprehensions *)

(** [t[i]] for a tuple [t]: a negative index counts from the end;
    [None] where Python raises [IndexError]. *)
Definition tuple_getitem {A} (t : list A) (i : Z) : option A :=
  let n := Z.of_nat (length t) in
  let j := if (i <? 0)%Z then (i + n)%Z else i in
  if (0 <=? j)%Z && (j <? n)%Z then t !! Z.to_nat j else None.

(** [range(n)] *)
Definition range (n : nat) : list Z := Z.of_nat <$> seq 0 n.

(** [[f(x) for x in l]], which raises as soon as one [f(x)] does. *)
Fixpoint comprehension {A B} (f : A -> option B) (l : list A) : option (list B) :=
  match l with
  | [] => Some []
  | x :: l' =>
      match f x with
      | Some y =>
          match comprehension f l' with
          | Some ys => Some (y :: ys)
          | None => None
          end
      | None => None
      end
  end.

(** ** The enumerations and the menu entry *)

Section Enumerations.

(** The constants of [constants.py] these functions use; the module is
    not at hand and they are modelled for any values. *)
Variables GLOBAL GEOMETRY BUFFER_GEOMETRY : string.
Variables OFF POSE REST : string.
Variables BLENDING_NONE BLENDING_NORMAL BLENDING_ADDITIVE
          BLENDING_SUBTRACTIVE BLENDING_MULTIPLY BLENDING_CUSTOM : string.
Variable EXTENSION : string.

(** [_geometry_types] *)
Definition _geometry_types : list (string * string * string) :=
  let keys := [GLOBAL; GEOMETRY; BUFFER_GEOMETRY] in
  foldl (fun types key => (types ++ [(key, title key, key)])%list) [] keys.

(** The items of [ExportThree.option_geometry_type]:
    [_geometry_types()[1:]]. *)
Definition option_geometry_type_items : list (string * string * string) :=
  drop 1 _geometry_types.

(** [animation_options] *)
Definition animation_options : list (string * string * string) :=
  [(OFF, title OFF, OFF); (POSE, title POSE, POSE); (REST, title REST, REST)].

(** [_blending_types] *)
Definition _blending_types (index : Z) : option (string * string * string) :=
  let types := [BLENDING_NONE; BLENDING_NORMAL; BLENDING_ADDITIVE;
                BLENDING_SUBTRACTIVE; BLENDING_MULTIPLY; BLENDING_CUSTOM] in
  match tuple_getitem types index,
        tuple_getitem types index,
        tuple_getitem types index with
  | Some x, Some y, Some z => Some (x, y, z)
  | _, _, _ => None
  end.

(** The items of [Material.THREE_blending_type]:
    [[_blending_types(x) for x in range(5)]]. *)
Definition THREE_blending_type_items : option (list (string * string * string)) :=
  comprehension _blending_types (range 5).

(** [menu_func_export]: the text of the menu entry and the path given
    to the operator, for the path [blend_filepath] of the current
    file ([bpy.data.filepath]). *)
Definition menu_func_export (blend_filepath : string) : string * string :=
  let default_path := str_replace ".blend" EXTENSION blend_filepath in
  let text := "Three.js (" ++ EXTENSION ++ ")" in
  (text, default_path).

End Enumerations.

(** * Properties *)

(** ** Strings, paths and the monad *)

Lemma slice_to_neg_split (n : nat) (s : string) :
  exists last : string,
    s = slice_to_neg n s ++ last /\
    String.length last = Nat.min n (String.length s).
Proof.
  unfold slice_to_neg.
  assert (Hgen : forall (t : string) (k : nat), k <= String.length t ->
    exists last, t = String.substring 0 k t ++ last /\
                 String.length last = String.length t - k).
  { induction t as [|c t IH]; intros k Hk.
    - exists "". destruct k; simpl in *; [done | lia].
    - destruct k as [|k].
      + exists (String c t). by rewrite Nat.sub_0_r.
      + simpl in Hk. destruct (IH k ltac:(lia)) as (last & Heq & Hlen).
        exists last. split; [|simpl; lia].
        change (String c t = String c (String.substring 0 k t ++ last)).
        by f_equal. }
  destruct (Hgen s (String.length s - n) ltac:(lia)) as (last & Heq & Hlen).
  exists last. split; [done | lia].
Qed.

Lemma bind_lift_ok {S A B} (a : A) (k : A -> M S B) (s : S) :
  bind (lift (Ok a)) k s = k a s.
Proof. reflexivity. Qed.

Lemma bind_ok {S A B} (c : M S A) (k : A -> M S B) (s s' : S) (a : A) :
  c s = (Ok a, s') -> bind c k s = k a s'.
Proof. intros E. unfold bind. by rewrite E. Qed.

Lemma bind_assign_ok {B} (a : option_attr) (v : value)
    (k : unit -> M properties B) (p : properties) :
  bind (assign a (Ok v)) k p = k tt (setattr a v p).
Proof. reflexivity. Qed.

(** ** The dictionary of the settings *)

Lemma settings_of_key_of (p : properties) (a : option_attr) :
  settings_of p !! key_of a = Some (attr p a).
Proof. destruct a; vm_compute; reflexivity. Qed.

Lemma settings_of_dom (p : properties) :
  dom (settings_of p) = list_to_set option_keys.
Proof. vm_compute. reflexivity. Qed.

Lemma settings_of_ext (p q : properties) :
  (forall a, attr p a = attr q a) -> settings_of p = settings_of q.
Proof. intros E. unfold settings_of. by rewrite !E. Qed.

Lemma elem_of_option_keys (k : string) :
  k ∈ option_keys -> exists a, k = key_of a.
Proof.
  unfold option_keys. intros Hk.
  apply list_elem_of_fmap in Hk as (a & -> & _). by exists a.
Qed.

Lemma key_of_compression (a : option_attr) :
  key_of a = COMPRESSION -> a = option_compression.
Proof. destruct a; first [done | discriminate]. Qed.

Lemma sample_catalog_complete : catalog_complete sample_EXPORT_OPTIONS.
Proof.
  intros a Ha. destruct a; first [done | vm_compute; eauto].
Qed.

Section Correctness.

Context {text : Type} `{!JsonCodec text}.
Variable EXPORT_OPTIONS : gmap string value.
Variable PACK : string.
Variable tempdir : string.
Variable exporter :
  entry_point -> string -> gmap string value ->
  gmap string (file text) -> result unit * gmap string (file text).

Abbreviation fname := (get_settings_fullpath tempdir).
Abbreviation save := (save_settings_export tempdir).
Abbreviation restore := (restore_settings_export EXPORT_OPTIONS tempdir).
Abbreviation run := (execute PACK tempdir exporter).

(** ** Saving *)

Lemma open_write_ok (path : string) (data : text) (w : world text) :
  may_write path w -> open_write path data w = (Ok tt, written path data w).
Proof.
  unfold may_write, open_write, written.
  destruct (disk w !! path) as [f|]; [|done]. by intros ->.
Qed.

Lemma save_ok (p : properties) (w : world text) :
  may_write fname w ->
  save p w =
    (Ok (settings_of p), written fname (json_dump (VDict (settings_of p))) w).
Proof.
  intros Hw. unfold save_settings_export, bind. by rewrite open_write_ok.
Qed.

Lemma written_contents (path : string) (data : text) (w : world text) :
  contents <$> disk (written path data w) !! path = Some data.
Proof.
  unfold written. simpl. rewrite lookup_insert_eq.
  by destruct (disk w !! path).
Qed.

(** ** Restoring *)

Lemma dict_get_subscript (d : gmap string value) (k : string) (v : value) :
  EXPORT_OPTIONS !! k = Some v ->
  dict_get (VDict d) k (subscript EXPORT_OPTIONS k) = Ok (default v (d !! k)).
Proof. intros E. unfold subscript. by rewrite E. Qed.

Lemma fallback_lookup (a : option_attr) (v : value) :
  a <> option_compression -> EXPORT_OPTIONS !! key_of a = Some v ->
  fallback EXPORT_OPTIONS a = v.
Proof.
  intros Ha E. unfold fallback. rewrite decide_False by done. by rewrite E.
Qed.

(** With a complete table and a dictionary [d] read from the file (the
    empty one when there is no file), the twenty-eight assignments all
    run, and each attribute gets the persisted value of its key or else
    its fallback. *)
Lemma restore_runs (w : world text) (p : properties) (d : gmap string value) :
  catalog_complete EXPORT_OPTIONS ->
  read_settings tempdir w = Ok (VDict d) ->
  exists p',
    restore w p = (Ok tt, p') /\
    filepath p' = filepath p /\
    forall a, attr p' a = default (fallback EXPORT_OPTIONS a) (d !! key_of a).
Proof.
  intros Hc Hr. unfold restore_settings_export. rewrite Hr, bind_lift_ok.
  assert (Hd : forall a, a <> option_compression ->
    dict_get (VDict d) (key_of a) (subscript EXPORT_OPTIONS (key_of a)) =
    Ok (default (fallback EXPORT_OPTIONS a) (d !! key_of a))).
  { intros a Ha. destruct (Hc a Ha) as [v E].
    rewrite (dict_get_subscript _ _ _ E). by rewrite (fallback_lookup a v). }
  assert (Hn : dict_get (VDict d) COMPRESSION (Ok (VStr NONE)) =
    Ok (default (fallback EXPORT_OPTIONS option_compression)
                (d !! key_of option_compression))) by reflexivity.
  repeat match goal with
  | |- context [assign _ (dict_get (VDict d) COMPRESSION (Ok (VStr NONE)))] =>
      rewrite Hn, bind_assign_ok
  | |- context [assign ?a (dict_get (VDict d) ?k (subscript EXPORT_OPTIONS ?k))] =>
      let H := fresh in
      pose proof (Hd a ltac:(discriminate)) as H; cbn [key_of] in H;
      rewrite H; clear H; try rewrite bind_assign_ok
  end.
  unfold assign.
  eexists. split; [reflexivity|]. split; [reflexivity|].
  intros a; destruct a; reflexivity.
Qed.

Lemma read_settings_written (v : value) (w : world text) :
  (forall f, disk w !! fname = Some f -> r_ok f = true) ->
  read_settings tempdir (written fname (json_dump v) w) = Ok v.
Proof.
  intros Hr. unfold read_settings, written. simpl. rewrite lookup_insert_eq.
  destruct (disk w !! fname) as [f|] eqn:E; simpl.
  - rewrite (Hr f eq_refl). by rewrite json_load_dump.
  - by rewrite json_load_dump.
Qed.

(** C8.  [save_settings_export] returns the dictionary of the settings,
    whose keys are exactly the twenty-eight keys of the persisted state
    file, each holding the value of its property; it writes the JSON
    text of that dictionary to the one path
    [os.path.join(tempdir, 'three_settings_export.js')], replacing
    whatever the file held, and touches no other file. *)
Theorem save_settings_export_writes (p : properties) (w : world text) :
  may_write fname w ->
  let settings := settings_of p in
  let w' := written fname (json_dump (VDict settings)) w in
  save p w = (Ok settings, w') /\
  dom settings =
    list_to_set
      ["vertices"; "faces"; "normals"; "skinning"; "bones";
       "influencesPerVertex"; "geometryType"; "materials"; "uvCoords";
       "faceMaterials"; "maps"; "colors"; "mixColors"; "scale";
       "enablePrecision"; "precision"; "logging"; "compression"; "indent";
       "copyTextures"; "scene"; "embedAnimation"; "lights"; "cameras";
       "morphTargets"; "animation"; "frameStep"; "frameIndexAsTime"] /\
  size settings = 28 /\
  (forall a, settings !! key_of a = Some (attr p a)) /\
  fname = os_path_join tempdir "three_settings_export.js" /\
  fname = (if String.eqb tempdir "" || endswith_sep tempdir
           then tempdir ++ "three_settings_export.js"
           else tempdir ++ "/three_settings_export.js") /\
  contents <$> disk w' !! fname = Some (json_dump (VDict settings)) /\
  (forall other, other <> fname -> disk w' !! other = disk w !! other) /\
  trace w' = (trace w ++ [Wrote fname (json_dump (VDict settings))])%list.
Proof.
  intros Hw settings w'.
  split; [by apply save_ok|].
  split; [vm_compute; reflexivity|].
  split; [vm_compute; reflexivity|].
  split; [intros a; apply settings_of_key_of|].
  split; [reflexivity|].
  split; [unfold get_settings_fullpath, os_path_join; reflexivity|].
  split; [apply written_contents|].
  split; [|reflexivity].
  intros other Hne. unfold w', written. simpl. by rewrite lookup_insert_ne.
Qed.

(** C2.  Round trip: once the properties [p] are saved, restoring
    (into any properties [p0]) succeeds and gives every option back
    with the value it had in [p]; the restored record of the settings
    is the saved one. *)
Theorem save_restore_round_trip (p p0 : properties) (w : world text) :
  catalog_complete EXPORT_OPTIONS ->
  may_write fname w ->
  (forall f, disk w !! fname = Some f -> r_ok f = true) ->
  exists w1 p',
    save p w = (Ok (settings_of p), w1) /\
    restore w1 p0 = (Ok tt, p') /\
    (forall a, attr p' a = attr p a) /\
    settings_of p' = settings_of p /\
    filepath p' = filepath p0.
Proof.
  intros Hc Hw Hr.
  set (w1 := written fname (json_dump (VDict (settings_of p))) w).
  destruct (restore_runs w1 p0 (settings_of p) Hc) as (p' & Hrun & Hpath & Hattr).
  { by apply read_settings_written. }
  assert (Hsame : forall a, attr p' a = attr p a).
  { intros a. by rewrite Hattr, settings_of_key_of. }
  exists w1, p'. split; [by apply save_ok|].
  split; [done|]. split; [done|]. split; [by apply settings_of_ext | done].
Qed.


(** C5.  A settings file that exists and may be read but does not hold
    JSON makes [restore_settings_export] raise the [ValueError] of
    [json.load], with the properties as they were: no option has been
    assigned. *)
Theorem restore_corrupt_file_raises
    (w : world text) (p : properties) (f : file text) :
  disk w !! fname = Some f ->
  r_ok f = true ->
  json_load (contents f) = None ->
  restore w p = (Raise ValueError, p).
Proof.
  intros Hf Hr Hj. unfold restore_settings_export, read_settings.
  by rewrite Hf, Hr, Hj.
Qed.


(** ** The export action *)

(** With an output path chosen and a settings file that may be
    written, [execute] saves, resolves the path, and hands both to one
    entry point of the exporter, whose outcome is the outcome of the
    action. *)
Lemma execute_runs (p : properties) (w : world text) :
  filepath p <> "" ->
  may_write fname w ->
  let settings := settings_of p in
  let data := json_dump (VDict settings) in
  let path := resolve_filepath PACK (filepath p) (attr p option_compression) in
  let entry := if truthy (attr p option_export_scene)
               then export_scene else export_geometry in
  run p w =
    (match (exporter entry path settings (disk (written fname data w))).1 with
     | Ok _ => Ok FINISHED
     | Raise e => Raise e
     end,
     World (exporter entry path settings (disk (written fname data w))).2
           (trace w ++ [Wrote fname data; Called entry path settings])).
Proof.
  intros Hp Hw settings data path entry. unfold execute.
  assert (Ht : truthy (VStr (filepath p)) = true).
  { simpl. destruct (String.eqb_spec (filepath p) ""); done. }
  rewrite Ht. change (negb true) with false. cbv iota.
  rewrite (bind_ok _ _ _ _ _ (save_ok p w Hw)).
  assert (Hc : subscript (settings_of p) COMPRESSION = Ok (attr p option_compression)).
  { unfold subscript. change COMPRESSION with (key_of option_compression).
    by rewrite settings_of_key_of. }
  assert (Hs : subscript (settings_of p) SCENE = Ok (attr p option_export_scene)).
  { unfold subscript. change SCENE with (key_of option_export_scene).
    by rewrite settings_of_key_of. }
  rewrite Hc, bind_lift_ok, Hs, bind_lift_ok.
  fold settings data path.
  assert (Hcall : forall e w0,
    (call_exporter exporter e path settings ;; ret FINISHED)%py w0 =
    (match (exporter e path settings (disk w0)).1 with
     | Ok _ => Ok FINISHED
     | Raise x => Raise x
     end,
     World (exporter e path settings (disk w0)).2
           (trace w0 ++ [Called e path settings]))).
  { intros e w0. unfold bind, call_exporter, ret.
    by destruct (exporter e path settings (disk w0)) as [[u|x] d2]. }
  assert (Htr : forall e,
    (trace (written fname data w) ++ [Called e path settings])%list =
    (trace w ++ [Wrote fname data; Called e path settings])%list).
  { intros e. unfold written. simpl. by rewrite <- app_assoc. }
  unfold entry. destruct (truthy (attr p option_export_scene));
    by rewrite Hcall, Htr.
Qed.

(** C6.  With no output path chosen, [execute] raises
    [Exception("filename not set")] and leaves the world as it was: no
    file is written and the exporter is not called. *)
Theorem execute_without_filepath (p : properties) (w : world text) :
  filepath p = "" ->
  run p w = (Raise (Exception "filename not set"), w).
Proof. intros Hp. unfold execute. by rewrite Hp. Qed.

(** C10.  An export that reaches the exporter calls exactly one entry
    point, once: [export_scene] when the saved [settings["scene"]] is
    true and [export_geometry] when it is false, with the resolved
    path and with the dictionary that [save_settings_export] has just
    written and returned. *)
Theorem execute_calls_one_entry_point (p : properties) (w : world text) :
  filepath p <> "" ->
  may_write fname w ->
  let settings := settings_of p in
  let data := json_dump (VDict settings) in
  let w1 := written fname data w in
  save p w = (Ok settings, w1) /\
  exists scene compression,
    settings !! SCENE = Some scene /\
    settings !! COMPRESSION = Some compression /\
    let path := resolve_filepath PACK (filepath p) compression in
    let entry := if truthy scene then export_scene else export_geometry in
    exists r d2,
      exporter entry path settings (disk w1) = (r, d2) /\
      run p w =
        (match r with Ok _ => Ok FINISHED | Raise e => Raise e end,
         World d2 (trace w ++ [Wrote fname data; Called entry path settings])).
Proof.
  intros Hp Hw settings data w1. split; [by apply save_ok|].
  exists (attr p option_export_scene), (attr p option_compression).
  split; [apply (settings_of_key_of p option_export_scene)|].
  split; [apply (settings_of_key_of p option_compression)|].
  intros path entry.
  destruct (exporter entry path settings (disk w1)) as [r d2] eqn:E.
  exists r, d2. split; [done|].
  rewrite execute_runs by done. fold settings data w1 path entry.
  by rewrite E.
Qed.

(** C9.  The settings are saved before the exporter is called, and
    when the exporter raises, [execute] raises the same and does
    nothing more: the world is the one the exporter has left.  If the
    exporter has not touched the settings file, the file holds the
    settings of this export. *)
Theorem failed_export_keeps_settings
    (p : properties) (w : world text) (e : exn)
    (d2 : gmap string (file text)) :
  filepath p <> "" ->
  may_write fname w ->
  let settings := settings_of p in
  let data := json_dump (VDict settings) in
  let w1 := written fname data w in
  let path := resolve_filepath PACK (filepath p) (attr p option_compression) in
  let entry := if truthy (attr p option_export_scene)
               then export_scene else export_geometry in
  exporter entry path settings (disk w1) = (Raise e, d2) ->
  save p w = (Ok settings, w1) /\
  contents <$> disk w1 !! fname = Some data /\
  run p w =
    (Raise e,
     World d2 (trace w ++ [Wrote fname data; Called entry path settings])) /\
  (d2 !! fname = disk w1 !! fname -> contents <$> d2 !! fname = Some data).
Proof.
  intros Hp Hw settings data w1 path entry E.
  split; [by apply save_ok|].
  split; [apply written_contents|].
  split.
  - rewrite execute_runs by done. fold settings data w1 path entry.
    by rewrite E.
  - intros ->. apply written_contents.
Qed.


End Correctness.

(** ** The path handed to the exporter *)

(** C3.  The path is unchanged for the codec "none" (and for any tag
    other than [MSGPACK]); for "msgpack" it is the path without its
    last four characters, followed by the suffix [PACK].  For
    "model.json" the four characters are "json", the dot stays, and
    the result is "model.pack" exactly when [PACK] is "pack". *)
Theorem resolve_filepath_derivation :
  (forall PACK p c, c <> MSGPACK -> resolve_filepath PACK p (VStr c) = p) /\
  (forall PACK p, resolve_filepath PACK p (VStr "none") = p) /\
  (forall PACK p,
     resolve_filepath PACK p (VStr "msgpack") = slice_to_neg 4 p ++ PACK) /\
  (forall p, exists last,
     p = slice_to_neg 4 p ++ last /\
     String.length last = Nat.min 4 (String.length p)) /\
  (forall PACK, resolve_filepath PACK "model.json" (VStr "none") = "model.json") /\
  resolve_filepath "pack" "model.json" (VStr "msgpack") = "model.pack" /\
  (forall PACK,
     resolve_filepath PACK "model.json" (VStr "msgpack") = "model.pack" <->
     PACK = "pack").
Proof.
  split.
  { intros PACK p c Hc. unfold resolve_filepath, eq_str.
    destruct (String.eqb_spec c MSGPACK); done. }
  split; [done|]. split; [done|].
  split; [apply slice_to_neg_split|].
  split; [done|]. split; [done|].
  intros PACK.
  change (resolve_filepath PACK "model.json" (VStr "msgpack"))
    with ("model." ++ PACK).
  split.
  - intros E. simpl in E. by inversion E.
  - by intros ->.
Qed.

(** ** Where the code differs *)




(** ** The theorems at work on the sample environment *)

Lemma save_settings_export_writes_witness :
  may_write (get_settings_fullpath "/tmp/") empty_world /\
  save_settings_export "/tmp/" sample_properties empty_world =
    (Ok (settings_of sample_properties),
     written "/tmp/three_settings_export.js"
       (Rendered (VDict (settings_of sample_properties))) empty_world).
Proof.
  assert (Hw : may_write (get_settings_fullpath "/tmp/") empty_world)
    by exact I.
  split; [exact Hw|].
  exact (proj1 (save_settings_export_writes "/tmp/" sample_properties
                  empty_world Hw)).
Defined.

Lemma save_restore_round_trip_witness :
  exists w1 p',
    save_settings_export "/tmp/" sample_properties
      (world_with (Unparsable "stale")) =
      (Ok (settings_of sample_properties), w1) /\
    restore_settings_export sample_EXPORT_OPTIONS "/tmp/" w1
      (setattr option_scale (VFloat (5 # 1)) sample_properties) = (Ok tt, p') /\
    (forall a, attr p' a = attr sample_properties a) /\
    settings_of p' = settings_of sample_properties /\
    filepath p' = "model.json".
Proof.
  apply (save_restore_round_trip sample_EXPORT_OPTIONS "/tmp/").
  - exact sample_catalog_complete.
  - reflexivity.
  - intros f Hf. vm_compute in Hf. inversion Hf. reflexivity.
Defined.

Lemma read_settings_world_with (data : sample_text) :
  read_settings "/tmp/" (world_with data) =
  match json_load data with
  | Some settings => Ok settings
  | None => Raise ValueError
  end.
Proof.
  unfold read_settings, world_with.
  change (get_settings_fullpath "/tmp/") with "/tmp/three_settings_export.js".
  simpl disk. by rewrite lookup_singleton_eq.
Qed.


Lemma restore_corrupt_file_raises_witness :
  restore_settings_export sample_EXPORT_OPTIONS "/tmp/"
    (world_with (Unparsable "{vertices: tru")) sample_properties =
  (Raise ValueError, sample_properties).
Proof.
  apply (restore_corrupt_file_raises sample_EXPORT_OPTIONS "/tmp/" _ _
           (File (Unparsable "{vertices: tru") true true));
    reflexivity.
Defined.


Lemma execute_without_filepath_witness :
  execute "pack" "/tmp/" sample_exporter
    {| filepath := ""; attr := attr sample_properties |} empty_world =
  (Raise (Exception "filename not set"), empty_world).
Proof. apply execute_without_filepath. reflexivity. Defined.

Lemma execute_calls_one_entry_point_witness :
  let p := setattr option_export_scene (VBool true) sample_properties in
  exists r d2,
    sample_exporter export_scene "model.json" (settings_of p)
      (disk (written "/tmp/three_settings_export.js"
               (Rendered (VDict (settings_of p))) empty_world)) = (r, d2) /\
    execute "pack" "/tmp/" sample_exporter p empty_world =
      (match r with Ok _ => Ok FINISHED | Raise e => Raise e end,
       World d2
         [Wrote "/tmp/three_settings_export.js"
            (Rendered (VDict (settings_of p)));
          Called export_scene "model.json" (settings_of p)]).
Proof.
  intros p.
  destruct (execute_calls_one_entry_point "pack" "/tmp/" sample_exporter p
              empty_world ltac:(discriminate) I)
    as (_ & scene & compression & Hscene & Hcompression & H).
  vm_compute in Hscene. vm_compute in Hcompression.
  inversion Hscene; subst scene. inversion Hcompression; subst compression.
  exact H.
Defined.

Lemma failed_export_keeps_settings_witness :
  let data := Rendered (VDict (settings_of sample_properties)) in
  execute "pack" "/tmp/" failing_exporter sample_properties empty_world =
    (Raise (OtherError "export failed"),
     World {[ "/tmp/three_settings_export.js" := File data true true ]}
           [Wrote "/tmp/three_settings_export.js" data;
            Called export_geometry "model.json"
                   (settings_of sample_properties)]).
Proof.
  intros data.
  exact (proj1 (proj2 (proj2
    (failed_export_keeps_settings "pack" "/tmp/" failing_exporter
       sample_properties empty_world (OtherError "export failed")
       {[ "/tmp/three_settings_export.js" := File data true true ]}
       ltac:(discriminate) I eq_refl)))).
Defined.


Lemma resolve_filepath_derivation_witness :
  resolve_filepath "pack" "scene.json" (VStr "gzip") = "scene.json".
Proof.
  exact (proj1 resolve_filepath_derivation "pack" "scene.json" "gzip"
           ltac:(discriminate)).
Defined.

(** * Further properties *)

(** ** The assignments one by one *)

Lemma bind_ret_tt {S} (c : M S unit) (s : S) :
  bind c (fun _ => ret tt) s = c s.
Proof. unfold bind, ret. by destruct (c s) as [[[]|e] s']. Qed.

Lemma restore_steps_cons (EXPORT_OPTIONS : gmap string value) (settings : value)
    (a : option_attr) (l : list option_attr) (p : properties) :
  restore_steps EXPORT_OPTIONS settings (a :: l) p =
  bind (restore_step EXPORT_OPTIONS settings a)
       (fun _ => restore_steps EXPORT_OPTIONS settings l) p.
Proof. destruct l; [|done]. simpl. by rewrite bind_ret_tt. Qed.

Lemma fallback_expr_cases (EXPORT_OPTIONS : gmap string value) (a : option_attr) :
  fallback_expr EXPORT_OPTIONS a = Ok (fallback EXPORT_OPTIONS a) /\
    (a = option_compression \/ is_Some (EXPORT_OPTIONS !! key_of a)) \/
  fallback_expr EXPORT_OPTIONS a = Raise (KeyError (key_of a)) /\
    a <> option_compression /\ EXPORT_OPTIONS !! key_of a = None.
Proof.
  unfold fallback_expr, fallback, subscript.
  destruct (decide (a = option_compression)) as [->|Ha]; [by left; split; [|left]|].
  destruct (EXPORT_OPTIONS !! key_of a) as [v|] eqn:E.
  - left. split; [done | right; eauto].
  - by right.
Qed.

Section MoreRestore.

Context {text : Type} `{!JsonCodec text}.
Variable EXPORT_OPTIONS : gmap string value.
Variable tempdir : string.

Abbreviation fname := (get_settings_fullpath tempdir).
Abbreviation restore := (restore_settings_export EXPORT_OPTIONS tempdir).
Abbreviation merged d a :=
  (default (fallback EXPORT_OPTIONS a) (d !! key_of a)).

Lemma restore_unfold (w : world text) :
  restore w =
  bind (lift (read_settings tempdir w))
       (fun settings => restore_steps EXPORT_OPTIONS settings restore_order).
Proof. reflexivity. Qed.

(** The assignments from a dictionary: the path is kept, an attribute
    is left or gets its merged value, and the outcome is [Ok] or the
    [KeyError] of an entry that [EXPORT_OPTIONS] lacks. *)
Lemma restore_steps_dict (d : gmap string value) (l : list option_attr)
    (p : properties) :
  exists r p',
    restore_steps EXPORT_OPTIONS (VDict d) l p = (r, p') /\
    filepath p' = filepath p /\
    (forall a, attr p' a = attr p a \/ attr p' a = merged d a) /\
    (r = Ok tt \/
     exists b, b ∈ l /\ b <> option_compression /\
               EXPORT_OPTIONS !! key_of b = None /\
               r = Raise (KeyError (key_of b))) /\
    (r = Ok tt ->
     forall b, b ∈ l -> b <> option_compression ->
               is_Some (EXPORT_OPTIONS !! key_of b)).
Proof.
  revert p. induction l as [|a l IH]; intros p.
  - exists (Ok tt), p. split; [done|]. split; [done|].
    split; [by left|]. split; [by left|].
    intros _ b Hb. by apply elem_of_nil in Hb.
  - rewrite restore_steps_cons. unfold bind, restore_step, assign, dict_get.
    destruct (fallback_expr_cases EXPORT_OPTIONS a)
      as [[-> Hpresent]|(-> & Ha & Hmiss)].
    + destruct (IH (setattr a (merged d a) p))
        as (r & p' & -> & Hpath & Hattr & Hout & Hok).
      exists r, p'. split; [done|]. split; [done|]. split; [|split].
      * intros b. destruct (Hattr b) as [E|E]; [|by right].
        rewrite E. unfold setattr. simpl.
        destruct (decide (a = b)) as [->|]; [by right | by left].
      * destruct Hout as [->|(b & Hb & ?)]; [by left|].
        right. exists b. split; [by apply list_elem_of_further | done].
      * intros Hr b Hb Hne. apply elem_of_cons in Hb as [->|Hb].
        -- by destruct Hpresent.
        -- by apply Hok.
    + exists (Raise (KeyError (key_of a))), p.
      split; [done|]. split; [done|]. split; [by left|]. split.
      * right. exists a. split; [apply list_elem_of_here | done].
      * discriminate.
Qed.

(** The assignments from a value that is no dictionary. *)
Lemma restore_steps_not_dict (settings : value) (p : properties) :
  (forall d, settings <> VDict d) ->
  restore_steps EXPORT_OPTIONS settings restore_order p =
  (Raise (AttributeError "get"), p).
Proof. intros Hd. destruct settings; first [reflexivity | by destruct (Hd d)]. Qed.

(** X1.  First run: with no settings file, or one that may not be
    read, [restore_settings_export] succeeds and gives every option
    its fallback, whatever the properties held before. *)
Theorem restore_first_run (w : world text) (p : properties) :
  catalog_complete EXPORT_OPTIONS ->
  (forall f, disk w !! fname = Some f -> r_ok f = false) ->
  exists p',
    restore w p = (Ok tt, p') /\
    filepath p' = filepath p /\
    forall a, attr p' a = fallback EXPORT_OPTIONS a.
Proof.
  intros Hc Hf.
  assert (Hr : read_settings tempdir w = Ok (VDict ∅)).
  { unfold read_settings. destruct (disk w !! fname) as [f|]; [|done].
    by rewrite (Hf f eq_refl). }
  destruct (restore_runs EXPORT_OPTIONS tempdir w p ∅ Hc Hr)
    as (p' & Hrun & Hpath & Hattr).
  exists p'. split; [done|]. split; [done|].
  intros a. by rewrite Hattr, lookup_empty.
Qed.

(** X2.  Only the keys of the settings count: two persisted
    dictionaries that agree on them are restored to the same options,
    so a key that is no key of the settings is ignored. *)
Theorem restore_ignores_unknown_keys
    (w1 w2 : world text) (p : properties) (d1 d2 : gmap string value) :
  catalog_complete EXPORT_OPTIONS ->
  read_settings tempdir w1 = Ok (VDict d1) ->
  read_settings tempdir w2 = Ok (VDict d2) ->
  (forall k, k ∈ option_keys -> d1 !! k = d2 !! k) ->
  exists p1 p2,
    restore w1 p = (Ok tt, p1) /\
    restore w2 p = (Ok tt, p2) /\
    (forall a, attr p1 a = attr p2 a) /\
    settings_of p1 = settings_of p2.
Proof.
  intros Hc H1 H2 Hagree.
  destruct (restore_runs EXPORT_OPTIONS tempdir w1 p d1 Hc H1)
    as (p1 & Hrun1 & _ & Hattr1).
  destruct (restore_runs EXPORT_OPTIONS tempdir w2 p d2 Hc H2)
    as (p2 & Hrun2 & _ & Hattr2).
  assert (Hsame : forall a, attr p1 a = attr p2 a).
  { intros a. rewrite Hattr1, Hattr2, Hagree; [done|].
    apply list_elem_of_fmap. exists a. split; [done|].
    destruct a; repeat first [apply list_elem_of_here | apply list_elem_of_further]. }
  exists p1, p2. split; [done|]. split; [done|]. split; [done|].
  by apply settings_of_ext.
Qed.

(** X3.  A settings file that holds JSON but no object (a list, a
    string, a number, [null]) makes [restore_settings_export] raise
    [AttributeError] at the first [settings.get], whatever
    [EXPORT_OPTIONS] holds, with no option assigned. *)
Theorem restore_not_an_object
    (w : world text) (p : properties) (f : file text) (settings : value) :
  disk w !! fname = Some f ->
  r_ok f = true ->
  json_load (contents f) = Some settings ->
  (forall d, settings <> VDict d) ->
  restore w p = (Raise (AttributeError "get"), p).
Proof.
  intros Hf Hr Hj Hd. rewrite restore_unfold.
  assert (E : read_settings tempdir w = Ok settings).
  { unfold read_settings. by rewrite Hf, Hr, Hj. }
  rewrite E, bind_lift_ok. by apply restore_steps_not_dict.
Qed.

(** X4.  The fallbacks are evaluated before the dictionary is asked:
    if [EXPORT_OPTIONS] lacks the entry of one key other than the
    compression, [restore_settings_export] raises the [KeyError] of a
    missing entry, even when the settings file holds a value for every
    key. *)
Theorem restore_incomplete_table
    (w : world text) (p : properties) (d : gmap string value)
    (a : option_attr) :
  read_settings tempdir w = Ok (VDict d) ->
  a <> option_compression ->
  EXPORT_OPTIONS !! key_of a = None ->
  exists b p',
    restore w p = (Raise (KeyError (key_of b)), p') /\
    b <> option_compression /\
    EXPORT_OPTIONS !! key_of b = None.
Proof.
  intros Hr Ha Hmiss. rewrite restore_unfold, Hr, bind_lift_ok.
  destruct (restore_steps_dict d restore_order p)
    as (r & p' & -> & _ & _ & Hout & Hok).
  destruct Hout as [->|(b & _ & Hb & Hnone & ->)].
  - assert (Hin : a ∈ restore_order).
    { destruct a;
        repeat first [apply list_elem_of_here | apply list_elem_of_further]. }
    destruct (Hok eq_refl a Hin Ha) as [v Hv]. congruence.
  - by exists b, p'.
Qed.


(** X6.  A successful restore assigns every option: the options
    afterwards do not depend on what the properties held before, and
    restoring again changes nothing. *)
Theorem restore_overwrites_every_option
    (w : world text) (p1 p2 : properties) (d : gmap string value) :
  catalog_complete EXPORT_OPTIONS ->
  read_settings tempdir w = Ok (VDict d) ->
  exists p1' p2' p1'',
    restore w p1 = (Ok tt, p1') /\
    restore w p2 = (Ok tt, p2') /\
    restore w p1' = (Ok tt, p1'') /\
    (forall a, attr p1' a = attr p2' a) /\
    (forall a, attr p1'' a = attr p1' a).
Proof.
  intros Hc Hr.
  destruct (restore_runs EXPORT_OPTIONS tempdir w p1 d Hc Hr)
    as (p1' & Hrun1 & _ & Hattr1).
  destruct (restore_runs EXPORT_OPTIONS tempdir w p2 d Hc Hr)
    as (p2' & Hrun2 & _ & Hattr2).
  destruct (restore_runs EXPORT_OPTIONS tempdir w p1' d Hc Hr)
    as (p1'' & Hrun3 & _ & Hattr3).
  exists p1', p2', p1''. repeat (split; [done|]).
  split; intros a; congruence.
Qed.

(** X7.  Restoring and then saving brings a settings file up to date:
    the file then holds exactly the keys of the settings, with the
    value the old file had for each of them that it had; a file that
    already had exactly these keys is written back unchanged. *)
Theorem restore_then_save_migrates
    (w : world text) (p : properties) (d : gmap string value) :
  catalog_complete EXPORT_OPTIONS ->
  read_settings tempdir w = Ok (VDict d) ->
  may_write fname w ->
  (forall f, disk w !! fname = Some f -> r_ok f = true) ->
  exists p' w',
    restore w p = (Ok tt, p') /\
    save_settings_export tempdir p' w = (Ok (settings_of p'), w') /\
    read_settings tempdir w' = Ok (VDict (settings_of p')) /\
    dom (settings_of p') = list_to_set option_keys /\
    (forall k v, k ∈ option_keys -> d !! k = Some v ->
       settings_of p' !! k = Some v) /\
    (dom d = list_to_set option_keys -> settings_of p' = d).
Proof.
  intros Hc Hr Hw Hread.
  destruct (restore_runs EXPORT_OPTIONS tempdir w p d Hc Hr)
    as (p' & Hrun & _ & Hattr).
  exists p', (written fname (json_dump (VDict (settings_of p'))) w).
  split; [done|]. split; [by apply save_ok|].
  split; [by apply read_settings_written|].
  split; [apply settings_of_dom|].
  assert (Hkept : forall k v, k ∈ option_keys -> d !! k = Some v ->
                              settings_of p' !! k = Some v).
  { intros k v Hk Hd. apply elem_of_option_keys in Hk as [a ->].
    by rewrite settings_of_key_of, Hattr, Hd. }
  split; [done|].
  intros Hdom. apply map_eq. intros k.
  destruct (d !! k) as [v|] eqn:E.
  - apply Hkept; [|done].
    apply (elem_of_list_to_set (C := gset string)). rewrite <- Hdom.
    apply elem_of_dom. eauto.
  - apply not_elem_of_dom. rewrite settings_of_dom, <- Hdom.
    by apply not_elem_of_dom.
Qed.

End MoreRestore.

(** ** Saving and exporting, further *)

Section MoreExport.

Context {text : Type} `{!JsonCodec text}.
Variable PACK : string.
Variable tempdir : string.
Variable exporter :
  entry_point -> string -> gmap string value ->
  gmap string (file text) -> result unit * gmap string (file text).

Abbreviation fname := (get_settings_fullpath tempdir).
Abbreviation save := (save_settings_export tempdir).

(** X8.  When the settings file exists and may not be written, saving
    raises [IOError]; an export then stops there: the world is as it
    was, nothing is written and the exporter is not called. *)
Theorem execute_settings_not_writable
    (p : properties) (w : world text) (f : file text) :
  disk w !! fname = Some f ->
  w_ok f = false ->
  save p w = (Raise (IOError fname), w) /\
  (filepath p <> "" ->
   execute PACK tempdir exporter p w = (Raise (IOError fname), w)).
Proof.
  intros Hf Hw.
  assert (Hs : save p w = (Raise (IOError fname), w)).
  { unfold save_settings_export, bind, open_write. by rewrite Hf, Hw. }
  split; [done|]. intros Hp. unfold execute.
  assert (Ht : truthy (VStr (filepath p)) = true).
  { simpl. by destruct (String.eqb_spec (filepath p) ""). }
  rewrite Ht. change (negb true) with false. cbv iota.
  unfold bind at 1. by rewrite Hs.
Qed.

(** X9.  Saving does not merge: after two saves the files are the ones
    a single save of the second properties gives, and the settings
    file holds the second settings only. *)
Theorem save_last_writer_wins (p1 p2 : properties) (w : world text) :
  may_write fname w ->
  exists w1 w2 w2',
    save p1 w = (Ok (settings_of p1), w1) /\
    save p2 w1 = (Ok (settings_of p2), w2) /\
    save p2 w = (Ok (settings_of p2), w2') /\
    disk w2 = disk w2' /\
    contents <$> disk w2 !! fname = Some (json_dump (VDict (settings_of p2))).
Proof.
  intros Hw.
  set (w1 := written fname (json_dump (VDict (settings_of p1))) w).
  assert (Hw1 : may_write fname w1).
  { unfold may_write, w1, written. simpl. rewrite lookup_insert_eq.
    unfold may_write in Hw. by destruct (disk w !! fname). }
  exists w1, (written fname (json_dump (VDict (settings_of p2))) w1),
         (written fname (json_dump (VDict (settings_of p2))) w).
  split; [by apply save_ok|]. split; [by apply save_ok|].
  split; [by apply save_ok|]. split; [|apply written_contents].
  unfold w1, written. simpl. rewrite lookup_insert_eq, insert_insert_eq.
  by destruct (disk w !! fname).
Qed.

End MoreExport.

(** ** The resolved path, further *)

Lemma substring_0_0 (s : string) : String.substring 0 0 s = "".
Proof. by destruct s. Qed.

Lemma substring_prefix_app (a b : string) :
  String.substring 0 (String.length a) (a ++ b) = a.
Proof.
  induction a as [|c a IH]; [apply substring_0_0|].
  change (String c (String.substring 0 (String.length a) (a ++ b)) = String c a).
  by rewrite IH.
Qed.

Lemma string_length_app (a b : string) :
  String.length (a ++ b) = String.length a + String.length b.
Proof.
  induction a as [|c a IH]; [done|].
  change (S (String.length (a ++ b)) = S (String.length a + String.length b)).
  by rewrite IH.
Qed.

(** X10.  With the codec "msgpack", a path of at most four characters
    is dropped whole and the result is the bare suffix; a path that
    ends in four characters [b] after [a] becomes [a] followed by the
    suffix, so its length changes by the length of the suffix less
    four.  Any value but the string "msgpack" leaves the path. *)
Theorem resolve_filepath_edges (PACK : string) :
  (forall p, String.length p <= 4 ->
     resolve_filepath PACK p (VStr MSGPACK) = PACK) /\
  (forall a b, String.length b = 4 ->
     resolve_filepath PACK (a ++ b) (VStr MSGPACK) = a ++ PACK) /\
  (forall p, 4 <= String.length p ->
     String.length (resolve_filepath PACK p (VStr MSGPACK)) =
     String.length p - 4 + String.length PACK) /\
  (forall p v, v <> VStr MSGPACK -> resolve_filepath PACK p v = p).
Proof.
  split; [|split; [|split]].
  - intros p Hp. unfold resolve_filepath. simpl. unfold slice_to_neg.
    replace (String.length p - 4) with 0 by lia. by rewrite substring_0_0.
  - intros a b Hb. unfold resolve_filepath. simpl. unfold slice_to_neg.
    rewrite string_length_app, Hb.
    replace (String.length a + 4 - 4) with (String.length a) by lia.
    by rewrite substring_prefix_app.
  - intros p Hp. unfold resolve_filepath. simpl.
    destruct (slice_to_neg_split 4 p) as (last & Heq & Hlen).
    rewrite string_length_app.
    assert (String.length p =
            String.length (slice_to_neg 4 p) + String.length last)
      by (by rewrite <- string_length_app, <- Heq).
    lia.
  - intros p v Hv. unfold resolve_filepath.
    destruct v as [| | | |s| |]; try done. simpl.
    destruct (String.eqb_spec s MSGPACK) as [->|]; done.
Qed.

(** X11.  [compression_types] raises exactly when [import msgpack]
    raises something other than an [ImportError], and then it raises
    that same exception. *)
Theorem compression_types_raises (import_msgpack : result unit) (e : exn) :
  compression_types import_msgpack = Raise e <->
  import_msgpack = Raise e /\ forall name, e <> ImportError name.
Proof.
  unfold compression_types. split.
  - destruct import_msgpack as [u|x]; [discriminate|].
    destruct x; intros E; first [discriminate | by inversion E].
  - intros [-> He]. destruct e; try done. by destruct (He name).
Qed.

(** ** Replacement and the menu entry *)

Lemma string_app_assoc (a b c : string) : (a ++ b) ++ c = a ++ b ++ c.
Proof.
  induction a as [|x a IH]; [done|].
  change (String x ((a ++ b) ++ c) = String x (a ++ b ++ c)). by rewrite IH.
Qed.

Lemma prefix_true_app (old s : string) :
  String.prefix old s = true -> exists rest, s = old ++ rest.
Proof.
  revert s. induction old as [|c old IH]; intros s H.
  - by exists s.
  - destruct s as [|x s]; [discriminate|]. simpl in H.
    destruct (ascii_dec c x) as [->|]; [|discriminate].
    destruct (IH s H) as [rest ->]. by exists rest.
Qed.

Lemma app_eq_app_prefix (u x y v : string) :
  x ++ y = u ++ v -> String.length u <= String.length x ->
  exists m, x = u ++ m.
Proof.
  revert x. induction u as [|c u IH]; intros x H Hlen.
  - by exists x.
  - destruct x as [|d x]; [simpl in Hlen; lia|].
    change (String d (x ++ y) = String c (u ++ v)) in H.
    inversion H; subst.
    destruct (IH x ltac:(done) ltac:(simpl in Hlen; lia)) as [m ->].
    by exists m.
Qed.

Lemma occurs_tail (old : string) (c : ascii) (s : string) :
  occurs old s -> occurs old (String c s).
Proof. intros (x & y & ->). by exists (String c x), y. Qed.

Lemma replace_no_occurrence (old new s : string) :
  ~ occurs old s -> str_replace old new s = s.
Proof.
  unfold str_replace. induction s as [|c s IH]; intros H; [done|].
  cbn [replace_from]. destruct (String.prefix old (String c s)) eqn:E.
  - destruct H. apply prefix_true_app in E as [rest ->]. by exists "", rest.
  - rewrite IH; [done|]. intros Ho. apply H. by apply occurs_tail.
Qed.

Lemma replace_blend_here (new b : string) :
  str_replace ".blend" new (".blend" ++ b) = new ++ str_replace ".blend" new b.
Proof. destruct b; reflexivity. Qed.

Lemma replace_blend_after (new a b : string) :
  ~ occurs ".blend" (a ++ ".blen") ->
  str_replace ".blend" new (a ++ ".blend" ++ b) =
  a ++ new ++ str_replace ".blend" new b.
Proof.
  induction a as [|c a IH]; intros H; [apply replace_blend_here|].
  change (str_replace ".blend" new (String c (a ++ ".blend" ++ b)) =
          String c (a ++ new ++ str_replace ".blend" new b)).
  unfold str_replace. cbn [replace_from].
  destruct (String.prefix ".blend" (String c (a ++ ".blend" ++ b))) eqn:E.
  - destruct H. apply prefix_true_app in E as [rest E].
    assert (Hsplit : String c (a ++ ".blend" ++ b) =
                     (String c a ++ ".blen") ++ "d" ++ b).
    { change (String c (a ++ ".blen" ++ "d" ++ b) =
              String c ((a ++ ".blen") ++ "d" ++ b)).
      by rewrite string_app_assoc. }
    rewrite Hsplit in E.
    apply app_eq_app_prefix in E as [m Hm].
    + by exists "", m.
    + rewrite string_length_app. simpl. lia.
  - fold (str_replace ".blend" new (a ++ ".blend" ++ b)).
    rewrite IH; [done|]. intros Ho. apply H.
    change (occurs ".blend" (String c (a ++ ".blen"))). by apply occurs_tail.
Qed.

(** X12.  The path that [menu_func_export] gives the operator: a path
    in which ".blend" does not occur is passed as it is (so an unsaved
    file gives the empty path); in [a.blend] the ending is replaced by
    [EXTENSION]; and every ".blend" is replaced, not the last one
    alone, so one in a directory name is replaced too. *)
Theorem menu_func_export_default_path (EXTENSION : string) :
  (menu_func_export EXTENSION "").2 = "" /\
  (forall s, ~ occurs ".blend" s -> (menu_func_export EXTENSION s).2 = s) /\
  (forall a, ~ occurs ".blend" (a ++ ".blen") ->
     (menu_func_export EXTENSION (a ++ ".blend")).2 = a ++ EXTENSION) /\
  (forall a b, ~ occurs ".blend" (a ++ ".blen") ->
     (menu_func_export EXTENSION (a ++ ".blend" ++ b)).2 =
     a ++ EXTENSION ++ (menu_func_export EXTENSION b).2).
Proof.
  split; [done|]. split; [|split].
  - intros s H. by apply replace_no_occurrence.
  - intros a H. unfold menu_func_export. simpl snd.
    change (a ++ ".blend") with (a ++ ".blend" ++ "").
    rewrite replace_blend_after by done.
    change (str_replace ".blend" EXTENSION "") with "".
    assert (Hnil : forall s : string, s ++ "" = s).
    { induction s as [|c s IH]; [done|].
      change (String c (s ++ "") = String c s). by rewrite IH. }
    by rewrite Hnil.
  - intros a b H. by apply replace_blend_after.
Qed.

(** ** The enumerations *)

Lemma to_lower_to_upper (c : ascii) :
  is_lower c = true -> to_lower (to_upper c) = to_lower c.
Proof.
  destruct c as [[] [] [] [] [] [] [] []]; vm_compute;
    first [reflexivity | discriminate].
Qed.

Lemma to_lower_to_lower (c : ascii) : to_lower (to_lower c) = to_lower c.
Proof. destruct c as [[] [] [] [] [] [] [] []]; reflexivity. Qed.

Lemma to_lower_not_upper (c : ascii) : is_upper c = false -> to_lower c = c.
Proof. unfold to_lower. by intros ->. Qed.

Lemma is_lower_not_upper (c : ascii) : is_lower c = true -> is_upper c = false.
Proof.
  destruct c as [[] [] [] [] [] [] [] []]; vm_compute;
    first [reflexivity | discriminate].
Qed.

Lemma title_from_lower (b : bool) (s : string) :
  str_lower (title_from b s) = str_lower s /\
  String.length (title_from b s) = String.length s.
Proof.
  revert b. induction s as [|c s IH]; intros b; [done|].
  simpl. destruct (is_lower c) eqn:El.
  - destruct (IH true) as [E1 E2]. simpl. rewrite E1, E2.
    destruct b; [done|]. by rewrite to_lower_to_upper.
  - destruct (is_upper c) eqn:Eu.
    + destruct (IH true) as [E1 E2]. simpl. rewrite E1, E2.
      destruct b; [|done]. by rewrite to_lower_to_lower.
    + destruct (IH false) as [E1 E2]. simpl. by rewrite E1, E2.
Qed.

Section MoreEnumerations.

Variables GLOBAL GEOMETRY BUFFER_GEOMETRY : string.
Variables OFF POSE REST : string.
Variables BLENDING_NONE BLENDING_NORMAL BLENDING_ADDITIVE
          BLENDING_SUBTRACTIVE BLENDING_MULTIPLY BLENDING_CUSTOM : string.

Abbreviation blending :=
  (_blending_types BLENDING_NONE BLENDING_NORMAL BLENDING_ADDITIVE
     BLENDING_SUBTRACTIVE BLENDING_MULTIPLY BLENDING_CUSTOM).
Abbreviation blending_types :=
  [BLENDING_NONE; BLENDING_NORMAL; BLENDING_ADDITIVE;
   BLENDING_SUBTRACTIVE; BLENDING_MULTIPLY; BLENDING_CUSTOM].

(** X13.  [_blending_types(index)] is a type of the tuple, three
    times, for an index from -6 to 5 (a negative one counting from the
    end) and raises [IndexError] for any other.  The items of the
    blending property are those of the indices 0 to 4: the first five
    types in order, without the sixth, [CUSTOM], which only the
    indices 5 and -1 give. *)
Theorem blending_types_by_index :
  (forall index : Z, (-6 <= index < 6)%Z ->
     exists t, tuple_getitem blending_types index = Some t /\
               blending index = Some (t, t, t)) /\
  (forall index : Z, (index < -6 \/ 6 <= index)%Z -> blending index = None) /\
  THREE_blending_type_items BLENDING_NONE BLENDING_NORMAL BLENDING_ADDITIVE
     BLENDING_SUBTRACTIVE BLENDING_MULTIPLY BLENDING_CUSTOM =
    Some [enum_item BLENDING_NONE; enum_item BLENDING_NORMAL;
          enum_item BLENDING_ADDITIVE; enum_item BLENDING_SUBTRACTIVE;
          enum_item BLENDING_MULTIPLY] /\
  blending 5 = Some (enum_item BLENDING_CUSTOM) /\
  blending (-1) = Some (enum_item BLENDING_CUSTOM) /\
  (forall n, 6 < n ->
     comprehension blending (range n) = None).
Proof.
  split; [|split; [|split; [done|split; [done|split; [done|]]]]].
  - intros index H.
    assert (Hcases : (index = -6 \/ index = -5 \/ index = -4 \/ index = -3 \/
                      index = -2 \/ index = -1 \/ index = 0 \/ index = 1 \/
                      index = 2 \/ index = 3 \/ index = 4 \/ index = 5)%Z)
      by lia.
    repeat (destruct Hcases as [->|Hcases]; [eexists; split; reflexivity|]).
    subst. eexists; split; reflexivity.
  - intros index H. unfold _blending_types, tuple_getitem.
    change (Z.of_nat (length blending_types)) with 6%Z.
    destruct (index <? 0)%Z eqn:E.
    + apply Z.ltb_lt in E.
      assert ((0 <=? index + 6)%Z = false) as -> by (apply Z.leb_gt; lia).
      done.
    + apply Z.ltb_ge in E.
      assert ((index <? 6)%Z = false) as -> by (apply Z.ltb_ge; lia).
      by rewrite andb_false_r.
  - intros n Hn.
    assert (Hsplit : range n = (range 6 ++ 6%Z :: (Z.of_nat <$> seq 7 (n - 7)))%list).
    { unfold range. replace n with (6 + (1 + (n - 7))) at 1 by lia.
      rewrite seq_app, fmap_app. simpl seq at 2. done. }
    rewrite Hsplit. reflexivity.
Qed.

(** X14.  The items of [_geometry_types] and [animation_options] carry
    the key itself as identifier and as description, in the order of
    the keys; the label differs from the key in the case of its
    letters only.  The export option of the geometry type offers the
    last two geometry types and not the first, [GLOBAL]. *)
Theorem enumeration_items :
  _geometry_types GLOBAL GEOMETRY BUFFER_GEOMETRY =
    (fun key => (key, title key, key)) <$> [GLOBAL; GEOMETRY; BUFFER_GEOMETRY] /\
  option_geometry_type_items GLOBAL GEOMETRY BUFFER_GEOMETRY =
    (fun key => (key, title key, key)) <$> [GEOMETRY; BUFFER_GEOMETRY] /\
  animation_options OFF POSE REST =
    (fun key => (key, title key, key)) <$> [OFF; POSE; REST] /\
  (forall key, is_ascii_str key = true ->
     str_lower (title key) = str_lower key /\
     String.length (title key) = String.length key).
Proof.
  split; [done|]. split; [done|]. split; [done|].
  intros key _. apply title_from_lower.
Qed.

End MoreEnumerations.

(** ** The further properties at work on the sample environment *)

Lemma restore_first_run_witness :
  exists p',
    restore_settings_export sample_EXPORT_OPTIONS "/tmp/" empty_world
      (setattr option_scale (VFloat (5 # 1)) sample_properties) = (Ok tt, p') /\
    attr p' option_scale = VInt 1 /\
    attr p' option_compression = VStr "none".
Proof.
  destruct (restore_first_run sample_EXPORT_OPTIONS "/tmp/" empty_world
              (setattr option_scale (VFloat (5 # 1)) sample_properties)
              sample_catalog_complete)
    as (p' & Hrun & _ & Hattr).
  { intros f Hf. discriminate Hf. }
  exists p'. split; [exact Hrun|].
  split; rewrite Hattr; vm_compute; reflexivity.
Defined.

Lemma restore_ignores_unknown_keys_witness :
  exists p1 p2,
    restore_settings_export sample_EXPORT_OPTIONS "/tmp/"
      (world_with (Rendered (VDict {[ "scale" := VFloat (2 # 1) ]})))
      sample_properties = (Ok tt, p1) /\
    restore_settings_export sample_EXPORT_OPTIONS "/tmp/"
      (world_with (Rendered (VDict {[ "scale" := VFloat (2 # 1);
                                      "hierarchy" := VBool true ]})))
      sample_properties = (Ok tt, p2) /\
    (forall a, attr p1 a = attr p2 a) /\
    settings_of p1 = settings_of p2.
Proof.
  apply (restore_ignores_unknown_keys sample_EXPORT_OPTIONS "/tmp/" _ _ _
           {[ "scale" := VFloat (2 # 1) ]}
           {[ "scale" := VFloat (2 # 1); "hierarchy" := VBool true ]}).
  - exact sample_catalog_complete.
  - apply read_settings_world_with.
  - apply read_settings_world_with.
  - intros k Hk. apply elem_of_option_keys in Hk as [a ->].
    destruct a; vm_compute; reflexivity.
Defined.

Lemma restore_not_an_object_witness :
  restore_settings_export sample_EXPORT_OPTIONS "/tmp/"
    (world_with (Rendered (VList [VInt 1; VInt 2]))) sample_properties =
  (Raise (AttributeError "get"), sample_properties).
Proof.
  apply (restore_not_an_object sample_EXPORT_OPTIONS "/tmp/" _ _
           (File (Rendered (VList [VInt 1; VInt 2])) true true)
           (VList [VInt 1; VInt 2]));
    first [reflexivity | discriminate].
Defined.

Lemma restore_incomplete_table_witness :
  exists b p',
    restore_settings_export (delete "scale" sample_EXPORT_OPTIONS) "/tmp/"
      (world_with (Rendered (VDict (settings_of sample_properties))))
      sample_properties = (Raise (KeyError (key_of b)), p') /\
    b <> option_compression /\
    delete "scale" sample_EXPORT_OPTIONS !! key_of b = None.
Proof.
  apply (restore_incomplete_table (delete "scale" sample_EXPORT_OPTIONS)
           "/tmp/" _ _ (settings_of sample_properties) option_scale).
  - apply read_settings_world_with.
  - discriminate.
  - vm_compute. reflexivity.
Defined.

Lemma restore_overwrites_every_option_witness :
  exists p1' p2' p1'',
    restore_settings_export sample_EXPORT_OPTIONS "/tmp/"
      (world_with (Rendered (VDict {[ "scale" := VFloat (2 # 1) ]})))
      sample_properties = (Ok tt, p1') /\
    restore_settings_export sample_EXPORT_OPTIONS "/tmp/"
      (world_with (Rendered (VDict {[ "scale" := VFloat (2 # 1) ]})))
      (setattr option_faces VNone sample_properties) = (Ok tt, p2') /\
    restore_settings_export sample_EXPORT_OPTIONS "/tmp/"
      (world_with (Rendered (VDict {[ "scale" := VFloat (2 # 1) ]})))
      p1' = (Ok tt, p1'') /\
    (forall a, attr p1' a = attr p2' a) /\
    (forall a, attr p1'' a = attr p1' a).
Proof.
  apply (restore_overwrites_every_option sample_EXPORT_OPTIONS "/tmp/" _ _ _
           {[ "scale" := VFloat (2 # 1) ]}).
  - exact sample_catalog_complete.
  - apply read_settings_world_with.
Defined.

Lemma restore_then_save_migrates_witness :
  exists p' w',
    restore_settings_export sample_EXPORT_OPTIONS "/tmp/"
      (world_with (Rendered (VDict {[ "scale" := VFloat (2 # 1) ]})))
      sample_properties = (Ok tt, p') /\
    save_settings_export "/tmp/" p'
      (world_with (Rendered (VDict {[ "scale" := VFloat (2 # 1) ]}))) =
      (Ok (settings_of p'), w') /\
    read_settings "/tmp/" w' = Ok (VDict (settings_of p')) /\
    settings_of p' !! "scale" = Some (VFloat (2 # 1)).
Proof.
  destruct (restore_then_save_migrates sample_EXPORT_OPTIONS "/tmp/"
              (world_with (Rendered (VDict {[ "scale" := VFloat (2 # 1) ]})))
              sample_properties {[ "scale" := VFloat (2 # 1) ]}
              sample_catalog_complete (read_settings_world_with _))
    as (p' & w' & Hrun & Hsave & Hread & _ & Hkept & _).
  { reflexivity. }
  { intros f Hf. vm_compute in Hf. inversion Hf. reflexivity. }
  exists p', w'. split; [exact Hrun|]. split; [exact Hsave|].
  split; [exact Hread|].
  apply Hkept; [|reflexivity].
  apply list_elem_of_fmap. exists option_scale. split; [reflexivity|].
  repeat first [apply list_elem_of_here | apply list_elem_of_further].
Defined.

Lemma execute_settings_not_writable_witness :
  let w := World {[ "/tmp/three_settings_export.js" :=
                      File (Unparsable "old") true false ]} [] in
  execute "pack" "/tmp/" sample_exporter sample_properties w =
  (Raise (IOError "/tmp/three_settings_export.js"), w).
Proof.
  intros w.
  apply (execute_settings_not_writable "pack" "/tmp/" sample_exporter
           sample_properties w (File (Unparsable "old") true false));
    first [reflexivity | discriminate].
Defined.

Lemma save_last_writer_wins_witness :
  exists w1 w2 w2',
    save_settings_export "/tmp/"
      (setattr option_scale (VFloat (5 # 1)) sample_properties) empty_world =
      (Ok (settings_of (setattr option_scale (VFloat (5 # 1)) sample_properties)),
       w1) /\
    save_settings_export "/tmp/" sample_properties w1 =
      (Ok (settings_of sample_properties), w2) /\
    save_settings_export "/tmp/" sample_properties empty_world =
      (Ok (settings_of sample_properties), w2') /\
    disk w2 = disk w2' /\
    contents <$> disk w2 !! get_settings_fullpath "/tmp/" =
      Some (json_dump (VDict (settings_of sample_properties))).
Proof. apply save_last_writer_wins. exact I. Defined.

Lemma resolve_filepath_edges_witness :
  resolve_filepath "pack" "abc" (VStr "msgpack") = "pack" /\
  resolve_filepath "pack" ("scene." ++ "json") (VStr "msgpack") =
    "scene." ++ "pack".
Proof.
  split.
  - apply (proj1 (resolve_filepath_edges "pack")). simpl. lia.
  - apply (proj1 (proj2 (resolve_filepath_edges "pack"))). reflexivity.
Defined.

Lemma menu_func_export_default_path_witness :
  (menu_func_export ".json" ("a" ++ ".blend")).2 = "a" ++ ".json".
Proof.
  apply (proj1 (proj2 (proj2 (menu_func_export_default_path ".json")))).
  intros (x & y & E).
  repeat (destruct x as [|? x]; [discriminate E|];
          injection E as _ E).
  destruct x; discriminate E.
Defined.

Lemma blending_types_by_index_witness :
  exists t,
    tuple_getitem ["NoBlending"; "NormalBlending"; "AdditiveBlending";
                   "SubtractiveBlending"; "MultiplyBlending"; "CustomBlending"]
                  (-2)%Z = Some t /\
    _blending_types "NoBlending" "NormalBlending" "AdditiveBlending"
      "SubtractiveBlending" "MultiplyBlending" "CustomBlending" (-2)%Z =
    Some (t, t, t).
Proof.
  apply (proj1 (blending_types_by_index "NoBlending" "NormalBlending"
                  "AdditiveBlending" "SubtractiveBlending" "MultiplyBlending"
                  "CustomBlending")).
  lia.
Defined.

Lemma enumeration_items_witness :
  str_lower (title "BufferGeometry") = str_lower "BufferGeometry" /\
  String.length (title "BufferGeometry") = String.length "BufferGeometry".
Proof.
  apply (proj2 (proj2 (proj2
    (enumeration_items "global" "geometry" "BufferGeometry"
       "off" "pose" "rest")))).
  reflexivity.
Defined.
